(** * pilgrimor_postgresql_engine.engine

    A shallow embedding of [PostgreSQLEngine] (engine.py): the
    result-shaping helper [_form_result], and the two public operations
    [execute_sql_with_return] and [execute_sql_no_return], which drive the
    psycopg driver through two nested [with] blocks.

    The driver is a third-party library and is taken as a parameter: a
    record of operations over an abstract database state.  Every call the
    engine makes to the driver is logged, together with its outcome, so
    that properties of the call sequence can be stated on the log. *)

From Stdlib Require Import String ZArith Bool Arith Lia List.
Import ListNotations.

Local Open Scope list_scope.

(** ** Python values *)

(** The values the engine moves around: column values coming from the
    driver, the tuples that are the fetched rows, and the lists the engine
    builds. *)
#[local] Set Warnings "-register-all".
Inductive pyvalue : Type :=
| PyNone
| PyBool (b : bool)
| PyInt (n : Z)
| PyStr (s : string)
| PyTuple (items : list pyvalue)
| PyList (items : list pyvalue).

(** A fetched record: psycopg's default row factory yields one tuple per
    row; [row] holds the tuple's items, and [PyTuple record] is the tuple as
    a value. *)
Definition row : Type := list pyvalue.

(** [record[0]].  Where the engine indexes, [len(record) == 1] has been
    tested, so the [IndexError] case (here [PyNone]) is never reached. *)
Definition getitem0 (record : row) : pyvalue := nth 0 record PyNone.

(** ** [_form_result] (engine.py, lines 90-111) *)

(** One iteration of the [for record in result] loop, on the accumulator
    [to_return_result]. *)
Definition form_record (to_return_result : list pyvalue) (record : row)
  : list pyvalue :=
  if length record =? 1 then to_return_result ++ [getitem0 record]
  else if 1 <? length record then to_return_result ++ [PyTuple record]
  else to_return_result.

Definition _form_result (result : list row) : pyvalue :=
  let result_length := length result in
  if result_length =? 1 then PyList (nth 0 result [])
  else if result_length =? 0 then PyNone
  else
    let to_return_result := [] in
    PyList (fold_left form_record result to_return_result).

(** ** The driver: psycopg *)

(** Connection and cursor objects are known by their identity. *)
Definition connection : Type := nat.
Definition cursor : Type := nat.

Section Psycopg.

(** The exception objects the driver raises, and the state of the driver
    and of the database server behind it. *)
Variable exn : Type.
Variable world : Type.

(** What a driver call gives back: the exception it raised, or its
    value. *)
Definition outcome (A : Type) : Type := (exn + A)%type.

(** The driver operations the engine calls.  [Cursor_exit] and
    [Connection_exit] are the [__exit__] methods, which receive the
    exception in flight, if any; psycopg declares both [-> None], so they
    never swallow it, but they may raise one of their own
    ([Connection.__exit__] commits or rolls back before it closes). *)
Record psycopg : Type := {
  connect : string -> bool -> world -> world * outcome connection;
  Connection_cursor : connection -> world -> world * outcome cursor;
  Cursor_execute :
    cursor -> string -> list pyvalue -> world -> world * outcome unit;
  Cursor_fetchall : cursor -> world -> world * outcome (list row);
  Cursor_exit : cursor -> option exn -> world -> world * outcome unit;
  Connection_exit :
    connection -> option exn -> world -> world * outcome unit
}.

(** One entry of the log per driver call, with the call's arguments and
    its outcome. *)
Inductive event : Type :=
| EvConnect (conninfo : string) (autocommit : bool) (r : outcome connection)
| EvCursor (c : connection) (r : outcome cursor)
| EvExecute (k : cursor) (query : string) (params : list pyvalue)
    (r : outcome unit)
| EvFetchall (k : cursor) (r : outcome (list row))
| EvCursorExit (k : cursor) (exc : option exn) (r : outcome unit)
| EvConnectionExit (c : connection) (exc : option exn) (r : outcome unit).

(** Computations of the engine: they thread the driver's state, emit the
    log of the driver calls they made, and end by raising or returning. *)
Definition M (A : Type) : Type := world -> world * list event * outcome A.

Definition ret {A : Type} (a : A) : M A := fun w => (w, [], inr a).

Definition bind {A B : Type} (m : M A) (f : A -> M B) : M B :=
  fun w =>
    match m w with
    | (w1, t1, inl e) => (w1, t1, inl e)
    | (w1, t1, inr a) =>
        match f a w1 with
        | (w2, t2, r) => (w2, t1 ++ t2, r)
        end
    end.

Notation "x <- m ;; k" := (bind m (fun x => k))
  (at level 61, m at next level, right associativity).

(** A driver call as a computation that logs itself. *)
Definition call {A : Type} (op : world -> world * outcome A)
    (log : outcome A -> event) : M A :=
  fun w => match op w with (w1, r) => (w1, [log r], r) end.

(** Python's [with mgr as target: body], for a manager whose [__enter__]
    returns the manager itself and whose [__exit__] returns [None]:
    [__exit__] runs on both ways out of the body; an exception of the body
    is re-raised after it, unless [__exit__] raised one itself. *)
Definition with_ {R A : Type} (mgr : M R)
    (exit_ : R -> option exn -> M unit) (body : R -> M A) : M A :=
  fun w =>
    match mgr w with
    | (w1, t1, inl e) => (w1, t1, inl e)
    | (w1, t1, inr target) =>
        match body target w1 with
        | (w2, t2, inl e) =>
            match exit_ target (Some e) w2 with
            | (w3, t3, inl e') => (w3, t1 ++ t2 ++ t3, inl e')
            | (w3, t3, inr _) => (w3, t1 ++ t2 ++ t3, inl e)
            end
        | (w2, t2, inr a) =>
            match exit_ target None w2 with
            | (w3, t3, inl e') => (w3, t1 ++ t2 ++ t3, inl e')
            | (w3, t3, inr _) => (w3, t1 ++ t2 ++ t3, inr a)
            end
        end
    end.

Variable drv : psycopg.

Definition psycopg_connect (conninfo : string) (autocommit : bool)
  : M connection :=
  call (connect drv conninfo autocommit) (EvConnect conninfo autocommit).

Definition connection_cursor (c : connection) : M cursor :=
  call (Connection_cursor drv c) (EvCursor c).

Definition cursor_execute (k : cursor) (query : string)
    (params : list pyvalue) : M unit :=
  call (Cursor_execute drv k query params) (EvExecute k query params).

Definition cursor_fetchall (k : cursor) : M (list row) :=
  call (Cursor_fetchall drv k) (EvFetchall k).

Definition cursor_exit (k : cursor) (exc : option exn) : M unit :=
  call (Cursor_exit drv k exc) (EvCursorExit k exc).

Definition connection_exit (c : connection) (exc : option exn) : M unit :=
  call (Connection_exit drv c exc) (EvConnectionExit c exc).

(** ** [PostgreSQLEngine] *)

Record PostgreSQLEngine : Type := { database_url : string }.

(** [__init__] (lines 27-33). *)
Definition __init__ (database_url : string) : M PostgreSQLEngine :=
  ret {| database_url := database_url |}.

(** [in_transaction: Optional[bool] = True]. *)
Definition in_transaction_default : option bool := Some true.

(** Truth value of an [Optional[bool]], as [not] tests it. *)
Definition truthy (x : option bool) : bool :=
  match x with
  | Some b => b
  | None => false
  end.

(** Lines 52-54 and 79-81. *)
Definition autocommit_of (in_transaction : option bool) : bool :=
  let autocommit := false in
  if negb (truthy in_transaction) then true else autocommit.

(** [execute_sql_with_return] (lines 35-64). *)
Definition execute_sql_with_return (self : PostgreSQLEngine)
    (sql_query : string) (sql_query_params : list pyvalue)
    (in_transaction : option bool) : M pyvalue :=
  let autocommit := autocommit_of in_transaction in
  result <-
    with_ (psycopg_connect (database_url self) autocommit) connection_exit
      (fun connection =>
         with_ (connection_cursor connection) cursor_exit
           (fun cursor =>
              _ <- cursor_execute cursor sql_query sql_query_params ;;
              cursor_fetchall cursor)) ;;
  ret (_form_result result).

(** [execute_sql_no_return] (lines 66-88); falling off the end of the
    function returns [None]. *)
Definition execute_sql_no_return (self : PostgreSQLEngine)
    (sql_query : string) (sql_query_params : list pyvalue)
    (in_transaction : option bool) : M pyvalue :=
  let autocommit := autocommit_of in_transaction in
  _ <-
    with_ (psycopg_connect (database_url self) autocommit) connection_exit
      (fun connection =>
         with_ (connection_cursor connection) cursor_exit
           (fun cursor =>
              cursor_execute cursor sql_query sql_query_params)) ;;
  ret PyNone.

End Psycopg.

Arguments EvConnect {exn} conninfo autocommit r.
Arguments EvCursor {exn} c r.
Arguments EvExecute {exn} k query params r.
Arguments EvFetchall {exn} k r.
Arguments EvCursorExit {exn} k exc r.
Arguments EvConnectionExit {exn} c exc r.
Arguments connect {exn world} p conninfo autocommit w.
Arguments Connection_cursor {exn world} p c w.
Arguments Cursor_execute {exn world} p k query params w.
Arguments Cursor_fetchall {exn world} p k w.
Arguments Cursor_exit {exn world} p k exc w.
Arguments Connection_exit {exn world} p c exc w.
Arguments ret {exn world A} a w.
Arguments bind {exn world A B} m f w.
Arguments call {exn world A} op log w.
Arguments with_ {exn world R A} mgr exit_ body w.
Arguments __init__ {exn world} database_url w.
Arguments execute_sql_with_return {exn world} drv self sql_query
  sql_query_params in_transaction w.
Arguments execute_sql_no_return {exn world} drv self sql_query
  sql_query_params in_transaction w.

(** ** Reading a run and its log *)

Definition log_of {W E A : Type} (run : W * list E * A) : list E :=
  snd (fst run).

Definition result_of {W E A : Type} (run : W * list E * A) : A := snd run.

(** The objects a call has acquired from the driver. *)
Inductive handle : Type :=
| HConnection (c : connection)
| HCursor (k : cursor).

Definition handle_eqb (h1 h2 : handle) : bool :=
  match h1, h2 with
  | HConnection c1, HConnection c2 => c1 =? c2
  | HCursor k1, HCursor k2 => k1 =? k2
  | _, _ => false
  end.

Definition release (h : handle) (open : list handle) : list handle :=
  filter (fun h' => negb (handle_eqb h h')) open.

(** The handles a log leaves without their [__exit__] called, given those
    left before it: a successful [connect] or [cursor()] adds one, a call
    of its [__exit__] takes it off, whatever that call did. *)
Fixpoint awaiting_exit {exn : Type} (log : list (event exn))
    (open : list handle) : list handle :=
  match log with
  | [] => open
  | EvConnect _ _ (inr c) :: log' =>
      awaiting_exit log' (HConnection c :: open)
  | EvCursor _ (inr k) :: log' => awaiting_exit log' (HCursor k :: open)
  | EvCursorExit k _ _ :: log' =>
      awaiting_exit log' (release (HCursor k) open)
  | EvConnectionExit c _ _ :: log' =>
      awaiting_exit log' (release (HConnection c) open)
  | _ :: log' => awaiting_exit log' open
  end.

(** The handles open after a log, given those open before it: a successful
    [connect] or [cursor()] opens one, and an [__exit__] that returns has
    closed its object.  An [__exit__] that raises has not:
    [Connection.__exit__] commits (or rolls back) and only then closes, so
    a commit that raises leaves the connection open. *)
Fixpoint still_open {exn : Type} (log : list (event exn))
    (open : list handle) : list handle :=
  match log with
  | [] => open
  | EvConnect _ _ (inr c) :: log' => still_open log' (HConnection c :: open)
  | EvCursor _ (inr k) :: log' => still_open log' (HCursor k :: open)
  | EvCursorExit k _ (inr _) :: log' =>
      still_open log' (release (HCursor k) open)
  | EvConnectionExit c _ (inr _) :: log' =>
      still_open log' (release (HConnection c) open)
  | _ :: log' => still_open log' open
  end.

Definition error_of {exn A : Type} (r : exn + A) : option exn :=
  match r with
  | inl e => Some e
  | inr _ => None
  end.

(** The exception a driver call raised, if it raised. *)
Definition raised {exn : Type} (ev : event exn) : option exn :=
  match ev with
  | EvConnect _ _ r => error_of r
  | EvCursor _ r => error_of r
  | EvExecute _ _ _ r => error_of r
  | EvFetchall _ r => error_of r
  | EvCursorExit _ _ r => error_of r
  | EvConnectionExit _ _ r => error_of r
  end.

Definition is_exit {exn : Type} (ev : event exn) : bool :=
  match ev with
  | EvCursorExit _ _ _ | EvConnectionExit _ _ _ => true
  | _ => false
  end.

Definition is_connect {exn : Type} (ev : event exn) : bool :=
  match ev with EvConnect _ _ _ => true | _ => false end.

Definition is_execute {exn : Type} (ev : event exn) : bool :=
  match ev with EvExecute _ _ _ _ => true | _ => false end.

Definition is_fetchall {exn : Type} (ev : event exn) : bool :=
  match ev with EvFetchall _ _ => true | _ => false end.

Definition calls {exn : Type} (which : event exn -> bool)
    (log : list (event exn)) : nat :=
  length (filter which log).

(** The last exception the driver raised in a log. *)
Fixpoint last_raised {exn : Type} (log : list (event exn)) : option exn :=
  match log with
  | [] => None
  | ev :: log' =>
      match last_raised log' with
      | Some e => Some e
      | None => raised ev
      end
  end.

(** The exception raised by [connect], [cursor()], [execute] or
    [fetchall], the first one if several did. *)
Fixpoint operation_error {exn : Type} (log : list (event exn)) : option exn :=
  match log with
  | [] => None
  | ev :: log' =>
      if is_exit ev then operation_error log'
      else match raised ev with
           | Some e => Some e
           | None => operation_error log'
           end
  end.

(** No [__exit__] raised. *)
Definition exits_clean {exn : Type} (log : list (event exn)) : bool :=
  forallb
    (fun ev => match raised ev with
               | Some _ => negb (is_exit ev)
               | None => true
               end)
    log.

(** The rows [fetchall] returned, when it was called and returned. *)
Fixpoint fetched {exn : Type} (log : list (event exn)) : option (list row) :=
  match log with
  | [] => None
  | EvFetchall _ (inr rows) :: _ => Some rows
  | _ :: log' => fetched log'
  end.

(** The arguments of the [connect] calls of a log. *)
Fixpoint connects {exn : Type} (log : list (event exn))
  : list (string * bool) :=
  match log with
  | [] => []
  | EvConnect conninfo autocommit _ :: log' =>
      (conninfo, autocommit) :: connects log'
  | _ :: log' => connects log'
  end.

(** ** The shape [_form_result] gives to several rows *)

Definition has_column (record : row) : bool := negb (length record =? 0).

(** What a row with a column contributes: its value when it has one column,
    the row itself otherwise. *)
Definition entry (record : row) : pyvalue :=
  if length record =? 1 then getitem0 record else PyTuple record.

(** ** A scripted driver *)

(** A driver that answers by a script: which calls raise, and with what
    message; what [fetchall] gives.  Its state counts the calls made, and a
    new object takes the count as its identity. *)
Record script : Type := {
  connect_raises : option string;
  cursor_raises : option string;
  execute_raises : option string;
  fetchall_gives : string + list row;
  cursor_exit_raises : option string;
  connection_exit_raises : option string
}.

Definition answer {A : Type} (raises : option string) (a : A) (w : nat)
  : nat * (string + A) :=
  match raises with
  | Some e => (S w, inl e)
  | None => (S w, inr a)
  end.

Definition scripted (s : script) : psycopg string nat := {|
  connect := fun _ _ w => answer (connect_raises s) w w;
  Connection_cursor := fun _ w => answer (cursor_raises s) w w;
  Cursor_execute := fun _ _ _ w => answer (execute_raises s) tt w;
  Cursor_fetchall := fun _ w => (S w, fetchall_gives s);
  Cursor_exit := fun _ _ w => answer (cursor_exit_raises s) tt w;
  Connection_exit := fun _ _ w => answer (connection_exit_raises s) tt w
|}.

(** A script on which every call succeeds and [fetchall] gives [rows]. *)
Definition gives (rows : list row) : script := {|
  connect_raises := None;
  cursor_raises := None;
  execute_raises := None;
  fetchall_gives := inr rows;
  cursor_exit_raises := None;
  connection_exit_raises := None
|}.

Definition engine : PostgreSQLEngine :=
  {| database_url := "postgresql://localhost/app" |}.

(** A script on which [execute] raises. *)
Definition execute_fails : script := {|
  connect_raises := None;
  cursor_raises := None;
  execute_raises := Some "syntax error at or near FROM"%string;
  fetchall_gives := inr [];
  cursor_exit_raises := None;
  connection_exit_raises := None
|}.

(** A script on which the statement runs and the commit of
    [Connection.__exit__] raises. *)
Definition commit_fails (rows : list row) : script := {|
  connect_raises := None;
  cursor_raises := None;
  execute_raises := None;
  fetchall_gives := inr rows;
  cursor_exit_raises := None;
  connection_exit_raises := Some "deferred constraint violated"%string
|}.

Definition select_users : string := "SELECT id, name FROM users".

(** Sample rows. *)
Definition ann : row := [PyInt 1; PyStr "ann"].
Definition bob : row := [PyInt 2; PyStr "bob"].
Definition ids : list row := [[PyInt 1]; [PyInt 2]; [PyInt 3]].
Definition ragged : list row := [[PyInt 1]; []; [PyInt 2; PyStr "bob"]].

(** ** The two public operations, by name *)

Inductive operation : Type :=
| WithReturn
| NoReturn.

Definition run_operation {exn world : Type} (op : operation)
    (drv : psycopg exn world) (self : PostgreSQLEngine) (sql_query : string)
    (sql_query_params : list pyvalue) (in_transaction : option bool)
  : M exn world pyvalue :=
  match op with
  | WithReturn =>
      execute_sql_with_return drv self sql_query sql_query_params
        in_transaction
  | NoReturn =>
      execute_sql_no_return drv self sql_query sql_query_params
        in_transaction
  end.

(** ** Failures of the driver *)

(** The driver fails the call from state [w] with [e]: of the calls the
    operation makes in turn, each in the state and on the object the one
    before it left, [connect], [cursor()], [execute] or (for the operation
    that fetches) [fetchall] raises [e], those before it having
    returned. *)
Inductive driver_fails {exn world : Type} (drv : psycopg exn world)
    (op : operation) (self : PostgreSQLEngine) (sql_query : string)
    (sql_query_params : list pyvalue) (in_transaction : option bool)
    (w : world) (e : exn) : Prop :=
| FailsConnect (w1 : world) :
    connect drv (database_url self) (autocommit_of in_transaction) w =
    (w1, inl e) ->
    driver_fails drv op self sql_query sql_query_params in_transaction w e
| FailsCursor (w1 w2 : world) (c : connection) :
    connect drv (database_url self) (autocommit_of in_transaction) w =
    (w1, inr c) ->
    Connection_cursor drv c w1 = (w2, inl e) ->
    driver_fails drv op self sql_query sql_query_params in_transaction w e
| FailsExecute (w1 w2 w3 : world) (c : connection) (k : cursor) :
    connect drv (database_url self) (autocommit_of in_transaction) w =
    (w1, inr c) ->
    Connection_cursor drv c w1 = (w2, inr k) ->
    Cursor_execute drv k sql_query sql_query_params w2 = (w3, inl e) ->
    driver_fails drv op self sql_query sql_query_params in_transaction w e
| FailsFetchall (w1 w2 w3 w4 : world) (c : connection) (k : cursor) :
    op = WithReturn ->
    connect drv (database_url self) (autocommit_of in_transaction) w =
    (w1, inr c) ->
    Connection_cursor drv c w1 = (w2, inr k) ->
    Cursor_execute drv k sql_query sql_query_params w2 = (w3, inr tt) ->
    Cursor_fetchall drv k w3 = (w4, inl e) ->
    driver_fails drv op self sql_query sql_query_params in_transaction w e.

(** The driver's [__exit__] methods never raise. *)
Definition exits_return {exn world : Type} (drv : psycopg exn world)
  : Prop :=
  (forall k exc w, error_of (snd (Cursor_exit drv k exc w)) = None) /\
  (forall c exc w, error_of (snd (Connection_exit drv c exc w)) = None).

(** A script on which [fetchall] raises, as after a statement that gives
    no rows back. *)
Definition fetch_fails : script := {|
  connect_raises := None;
  cursor_raises := None;
  execute_raises := None;
  fetchall_gives := inl "the last operation didn't produce a result"%string;
  cursor_exit_raises := None;
  connection_exit_raises := None
|}.

(** ** More readings of a log *)

(** The statements sent: query and parameters of each [execute] call. *)
Fixpoint statements {exn : Type} (log : list (event exn))
  : list (string * list pyvalue) :=
  match log with
  | [] => []
  | EvExecute _ query params _ :: log' => (query, params) :: statements log'
  | _ :: log' => statements log'
  end.

(** The calls other than [__exit__]: [connect], [cursor()], [execute] and
    [fetchall], in the order they were made. *)
Definition operations {exn : Type} (log : list (event exn))
  : list (event exn) :=
  filter (fun ev => negb (is_exit ev)) log.

Definition returned {exn : Type} (ev : event exn) : bool :=
  match raised ev with
  | Some _ => false
  | None => true
  end.

Definition is_handle (h : option nat) (n : nat) : bool :=
  match h with
  | Some m => m =? n
  | None => false
  end.

Definition value_of {exn A : Type} (r : exn + A) : option A :=
  match r with
  | inl _ => None
  | inr a => Some a
  end.

(** Every call of the log on a connection or a cursor is on the one the
    log's own [connect] or [cursor()] returned last ([c] and [k] are those
    returned before the log, if any). *)
Fixpoint own_handles {exn : Type} (log : list (event exn))
    (c : option connection) (k : option cursor) : bool :=
  match log with
  | [] => true
  | EvConnect _ _ r :: log' => own_handles log' (value_of r) k
  | EvCursor c' r :: log' => is_handle c c' && own_handles log' c (value_of r)
  | EvExecute k' _ _ _ :: log' => is_handle k k' && own_handles log' c k
  | EvFetchall k' _ :: log' => is_handle k k' && own_handles log' c k
  | EvCursorExit k' _ _ :: log' => is_handle k k' && own_handles log' c k
  | EvConnectionExit c' _ _ :: log' => is_handle c c' && own_handles log' c k
  end.

(** Sample rows without columns. *)
Definition bare : list row := [[]; []].

(** A script on which [cursor()] raises. *)
Definition cursor_fails : script := {|
  connect_raises := None;
  cursor_raises := Some "the connection is closed"%string;
  execute_raises := None;
  fetchall_gives := inr [];
  cursor_exit_raises := None;
  connection_exit_raises := None
|}.

(** A script on which [connect] raises. *)
Definition connect_fails : script := {|
  connect_raises := Some "connection refused"%string;
  cursor_raises := None;
  execute_raises := None;
  fetchall_gives := inr [];
  cursor_exit_raises := None;
  connection_exit_raises := None
|}.

(** * Properties *)

(** ** The loop of [_form_result] *)

Lemma form_record_entry (acc : list pyvalue) (record : row) :
  form_record acc record =
  if has_column record then acc ++ [entry record] else acc.
Proof.
  unfold form_record, has_column, entry.
  destruct record as [|v [|v' record]]; reflexivity.
Qed.

(** The loop appends, in row order, the entry of each row that has a
    column. *)
Lemma form_loop (result : list row) :
  forall acc,
    fold_left form_record result acc =
    acc ++ map entry (filter has_column result).
Proof.
  induction result as [|record result IH]; intros acc; simpl.
  - now rewrite app_nil_r.
  - rewrite IH, form_record_entry.
    destruct (has_column record); simpl; [|reflexivity].
    now rewrite <- app_assoc.
Qed.

Lemma form_result_several (result : list row) :
  1 < length result ->
  _form_result result = PyList (map entry (filter has_column result)).
Proof.
  intros Hlen. unfold _form_result.
  destruct (length result =? 1) eqn:E1; [apply Nat.eqb_eq in E1; lia|].
  destruct (length result =? 0) eqn:E0; [apply Nat.eqb_eq in E0; lia|].
  now rewrite form_loop.
Qed.

Lemma filter_has_column_le (result : list row) :
  length (filter has_column result) <= length result.
Proof.
  induction result as [|record result IH]; simpl; [lia|].
  destruct (has_column record); simpl; lia.
Qed.

(** A row without columns makes the kept rows fewer than the rows. *)
Lemma filter_has_column_lt (result : list row) :
  In [] result -> length (filter has_column result) < length result.
Proof.
  induction result as [|record result IH]; simpl; [tauto|].
  pose proof (filter_has_column_le result) as Hle.
  intros [Hnil|Hin].
  - subst record. simpl. lia.
  - apply IH in Hin. destruct (has_column record); simpl; lia.
Qed.

(** Rows of one column each are all kept, and are the one-item tuples of
    their entries. *)
Lemma single_columns (result : list row) :
  Forall (fun record => length record = 1) result ->
  filter has_column result = result /\
  result = map (fun v => [v]) (map entry result).
Proof.
  induction 1 as [|record result Hrecord _ [IH1 IH2]]; simpl; [now split|].
  destruct record as [|v [|v' record]]; try discriminate.
  simpl. rewrite IH1. split; [reflexivity|].
  now rewrite <- IH2.
Qed.

(** Rows of several columns each are all kept, as tuples. *)
Lemma several_columns (result : list row) :
  Forall (fun record => 1 < length record) result ->
  filter has_column result = result /\
  map entry result = map PyTuple result.
Proof.
  induction 1 as [|record result Hrecord _ [IH1 IH2]]; simpl; [now split|].
  destruct record as [|v [|v' record]]; simpl in Hrecord; try lia.
  simpl. rewrite IH1. split; [reflexivity|].
  unfold entry at 1. simpl. now rewrite IH2.
Qed.

(** ** Runs of the two operations *)

#[local] Arguments _form_result : simpl never.

Ltac unfold_engine :=
  cbv zeta;
  unfold execute_sql_with_return, execute_sql_no_return, bind, with_, ret,
    psycopg_connect, connection_cursor, cursor_execute, cursor_fetchall,
    cursor_exit, connection_exit, call, log_of, result_of.

(** Splits a run on the outcome of each driver call it reaches: one goal
    per path through the two [with] blocks. *)
Ltac driver_paths :=
  repeat match goal with
    | |- context [match ?op with _ => _ end] =>
        lazymatch op with
        | connect _ _ _ _ => idtac
        | Connection_cursor _ _ _ => idtac
        | Cursor_execute _ _ _ _ _ => idtac
        | Cursor_fetchall _ _ _ => idtac
        | Cursor_exit _ _ _ _ => idtac
        | Connection_exit _ _ _ _ => idtac
        end;
        destruct op as [? [?|?]]; simpl
    end.

Section Runs.

Context {exn world : Type} (drv : psycopg exn world).
Variables (self : PostgreSQLEngine) (sql_query : string)
  (sql_query_params : list pyvalue) (in_transaction : option bool)
  (w : world).

Let with_return :=
  execute_sql_with_return drv self sql_query sql_query_params
    in_transaction w.

Let no_return :=
  execute_sql_no_return drv self sql_query sql_query_params
    in_transaction w.

(** When [fetchall] returned [rows], the call returns [_form_result rows]
    if it returns, and it returns if no [__exit__] raises. *)
Lemma with_return_fetched (rows : list row) :
  fetched (log_of with_return) = Some rows ->
  (forall v, result_of with_return = inr v -> v = _form_result rows) /\
  (exits_clean (log_of with_return) = true ->
   result_of with_return = inr (_form_result rows)).
Proof.
  subst with_return. unfold_engine. driver_paths.
  all: intros Hrows; try discriminate Hrows.
  all: injection Hrows as <-.
  all: split; [intros v Hv; congruence | intros Hclean].
  all: try discriminate Hclean; reflexivity.
Qed.

(** [execute_sql_no_return] raises exactly when the driver raised, and then
    what the driver raised last; otherwise it returns [None]. *)
Lemma no_return_raises :
  match last_raised (log_of no_return) with
  | Some e => result_of no_return = inl e
  | None => result_of no_return = inr PyNone
  end.
Proof.
  subst no_return. unfold_engine. driver_paths.
  all: reflexivity.
Qed.

(** When [connect], [cursor()], [execute] or [fetchall] raised, the call
    raises what the driver raised last, which is that exception when no
    [__exit__] raised. *)
Lemma with_return_operation_error (e : exn) :
  operation_error (log_of with_return) = Some e ->
  (exists e', result_of with_return = inl e' /\
              last_raised (log_of with_return) = Some e') /\
  (exits_clean (log_of with_return) = true ->
   result_of with_return = inl e).
Proof.
  subst with_return. unfold_engine. driver_paths.
  all: cbn; intros He; try discriminate He.
  all: split; [eauto | intros Hclean; congruence].
Qed.

Lemma no_return_operation_error (e : exn) :
  operation_error (log_of no_return) = Some e ->
  (exists e', result_of no_return = inl e' /\
              last_raised (log_of no_return) = Some e') /\
  (exits_clean (log_of no_return) = true ->
   result_of no_return = inl e).
Proof.
  subst no_return. unfold_engine. driver_paths.
  all: cbn; intros He; try discriminate He.
  all: split; [eauto | intros Hclean; congruence].
Qed.

Lemma with_return_attempts :
  calls is_connect (log_of with_return) = 1 /\
  calls is_execute (log_of with_return) <= 1 /\
  calls is_fetchall (log_of with_return) <= 1.
Proof.
  subst with_return. unfold_engine. driver_paths.
  all: cbn; lia.
Qed.

Lemma no_return_attempts :
  calls is_connect (log_of no_return) = 1 /\
  calls is_execute (log_of no_return) <= 1 /\
  calls is_fetchall (log_of no_return) = 0.
Proof.
  subst no_return. unfold_engine. driver_paths.
  all: cbn; lia.
Qed.

End Runs.

(** ** The driver's side of a run *)

(** As [driver_paths], keeping the equation of each driver call. *)
Ltac driver_paths_eqn :=
  repeat match goal with
    | |- context [match ?op with _ => _ end] =>
        lazymatch op with
        | connect _ _ _ _ => idtac
        | Connection_cursor _ _ _ => idtac
        | Cursor_execute _ _ _ _ _ => idtac
        | Cursor_fetchall _ _ _ => idtac
        | Cursor_exit _ _ _ _ => idtac
        | Connection_exit _ _ _ _ => idtac
        end;
        destruct op as [? [?|?]] eqn:?; simpl
    end.

(** Closes a path on which an [__exit__] raised, against a driver whose
    [__exit__] methods never raise. *)
Ltac exit_raised Hk Hc :=
  match goal with
  | E : Cursor_exit _ ?k ?exc ?w = (_, inl _) |- _ =>
      specialize (Hk k exc w); rewrite E in Hk; discriminate Hk
  | E : Connection_exit _ ?c ?exc ?w = (_, inl _) |- _ =>
      specialize (Hc c exc w); rewrite E in Hc; discriminate Hc
  end.

Section DriverSide.

Context {exn world : Type} (drv : psycopg exn world).
Variables (self : PostgreSQLEngine) (sql_query : string)
  (sql_query_params : list pyvalue) (w : world).

(** On a driver whose [__exit__] methods never raise, no run has an
    [__exit__] that raised. *)
Lemma exits_return_clean (op : operation) (in_transaction : option bool) :
  exits_return drv ->
  exits_clean
    (log_of
       (run_operation op drv self sql_query sql_query_params in_transaction
          w)) = true.
Proof.
  intros [Hk Hc].
  destruct op; unfold run_operation; unfold_engine; driver_paths_eqn;
    try reflexivity; exit_raised Hk Hc.
Qed.

(** A failure of the driver is the failure the log of the run records. *)
Lemma driver_fails_logged (op : operation) (in_transaction : option bool)
    (e : exn) :
  driver_fails drv op self sql_query sql_query_params in_transaction w e ->
  operation_error
    (log_of
       (run_operation op drv self sql_query sql_query_params in_transaction
          w)) = Some e.
Proof.
  intros [w1 Hc | w1 w2 c Hc Hk | w1 w2 w3 c k Hc Hk Hx
         | w1 w2 w3 w4 c k Hop Hc Hk Hx Hf].
  - destruct op; unfold run_operation; unfold_engine; rewrite Hc;
      reflexivity.
  - destruct op; unfold run_operation; unfold_engine; rewrite Hc; simpl;
      rewrite Hk; simpl; driver_paths; reflexivity.
  - destruct op; unfold run_operation; unfold_engine; rewrite Hc; simpl;
      rewrite Hk; simpl; rewrite Hx; simpl; driver_paths; reflexivity.
  - subst op. unfold run_operation; unfold_engine. rewrite Hc; simpl.
    rewrite Hk; simpl. rewrite Hx; simpl. rewrite Hf; simpl.
    driver_paths; reflexivity.
Qed.

End DriverSide.

(** ** The claims *)

Section Claims.

Context {exn world : Type} (drv : psycopg exn world).
Variables (self : PostgreSQLEngine) (sql_query : string)
  (sql_query_params : list pyvalue) (w : world).

(** C1. When the fetch of [execute_sql_with_return] yields exactly one row,
    of any number of columns, the value returned is the list of that row's
    values: [_form_result] of the one-row list is that list, the call
    returns nothing else, and it does return it when no [__exit__]
    raises. *)
Theorem one_row_gives_its_values (in_transaction : option bool)
    (record : row) :
  let run :=
    execute_sql_with_return drv self sql_query sql_query_params
      in_transaction w in
  fetched (log_of run) = Some [record] ->
  _form_result [record] = PyList record /\
  (forall v, result_of run = inr v -> v = PyList record) /\
  (exits_clean (log_of run) = true -> result_of run = inr (PyList record)).
Proof.
  intros run Hrows. split; [reflexivity|].
  exact (with_return_fetched drv self sql_query sql_query_params
           in_transaction w [record] Hrows).
Qed.

(** C2. When the fetch of [execute_sql_with_return] yields no row, the
    value returned is [None]: [_form_result] of the empty list is [None],
    the call returns nothing else, and it does return it when no
    [__exit__] raises. *)
Theorem no_row_gives_none (in_transaction : option bool) :
  let run :=
    execute_sql_with_return drv self sql_query sql_query_params
      in_transaction w in
  fetched (log_of run) = Some [] ->
  _form_result [] = PyNone /\
  (forall v, result_of run = inr v -> v = PyNone) /\
  (exits_clean (log_of run) = true -> result_of run = inr PyNone).
Proof.
  intros run Hrows. split; [reflexivity|].
  exact (with_return_fetched drv self sql_query sql_query_params
           in_transaction w [] Hrows).
Qed.

(** C3. When the fetch of [execute_sql_with_return] yields M > 1 rows of
    one column each, the value returned is a list of M items, in row order,
    the i-th row being the one-item tuple of the i-th item. *)
Theorem single_column_rows_give_scalars (in_transaction : option bool)
    (rows : list row) :
  let run :=
    execute_sql_with_return drv self sql_query sql_query_params
      in_transaction w in
  fetched (log_of run) = Some rows ->
  1 < length rows ->
  Forall (fun record => length record = 1) rows ->
  exists items : list pyvalue,
    length items = length rows /\
    rows = map (fun v => [v]) items /\
    _form_result rows = PyList items /\
    (forall v, result_of run = inr v -> v = PyList items) /\
    (exits_clean (log_of run) = true -> result_of run = inr (PyList items)).
Proof.
  intros run Hrows Hlen Hcols.
  destruct (single_columns rows Hcols) as [Hkept Hitems].
  pose proof (form_result_several rows Hlen) as Hform.
  rewrite Hkept in Hform.
  exists (map entry rows). rewrite length_map.
  repeat split; try assumption; rewrite <- Hform;
    apply (with_return_fetched drv self sql_query sql_query_params
             in_transaction w rows Hrows).
Qed.

(** C4. When the fetch of [execute_sql_with_return] yields M > 1 rows of
    more than one column each, the value returned is the list of the M
    fetched rows, each as the tuple it was fetched as, in row order. *)
Theorem multi_column_rows_give_tuples (in_transaction : option bool)
    (rows : list row) :
  let run :=
    execute_sql_with_return drv self sql_query sql_query_params
      in_transaction w in
  fetched (log_of run) = Some rows ->
  1 < length rows ->
  Forall (fun record => 1 < length record) rows ->
  length (map PyTuple rows) = length rows /\
  _form_result rows = PyList (map PyTuple rows) /\
  (forall v, result_of run = inr v -> v = PyList (map PyTuple rows)) /\
  (exits_clean (log_of run) = true ->
   result_of run = inr (PyList (map PyTuple rows))).
Proof.
  intros run Hrows Hlen Hcols.
  destruct (several_columns rows Hcols) as [Hkept Htuples].
  pose proof (form_result_several rows Hlen) as Hform.
  rewrite Hkept, Htuples in Hform.
  split; [apply length_map|].
  split; [assumption|]. rewrite <- Hform.
  apply (with_return_fetched drv self sql_query sql_query_params
           in_transaction w rows Hrows).
Qed.

(** C5. Both operations call [connect] once, on the engine's URL, with
    [autocommit] on when [in_transaction] is [False] and off when it is
    [True]; [True] is the default of [in_transaction]. *)
Theorem in_transaction_sets_autocommit (in_transaction : bool) :
  in_transaction_default = Some true /\
  connects
    (log_of
       (execute_sql_with_return drv self sql_query sql_query_params
          (Some in_transaction) w)) =
  [(database_url self, negb in_transaction)] /\
  connects
    (log_of
       (execute_sql_no_return drv self sql_query sql_query_params
          (Some in_transaction) w)) =
  [(database_url self, negb in_transaction)].
Proof.
  split; [reflexivity|].
  replace (negb in_transaction) with (autocommit_of (Some in_transaction))
    by now destruct in_transaction.
  split; unfold_engine; driver_paths; reflexivity.
Qed.

(** C6, amended. On every way out of either operation, returning or
    raising, [__exit__] has been called on each cursor and connection the
    call acquired, whatever [connect], [cursor()], [execute], [fetchall]
    and the [__exit__] calls did; and when no [__exit__] raised, as when
    the driver's [__exit__] methods never raise, nothing the call acquired
    is still open.  (An object whose own [__exit__] raised can be left
    open.) *)
Theorem released_when_exits_return (op : operation)
    (in_transaction : option bool) :
  let run :=
    run_operation op drv self sql_query sql_query_params in_transaction w in
  awaiting_exit (log_of run) [] = [] /\
  (exits_clean (log_of run) = true -> still_open (log_of run) [] = []) /\
  (exits_return drv -> still_open (log_of run) [] = []).
Proof.
  intros run.
  assert (Hclean : exits_clean (log_of run) = true ->
                   still_open (log_of run) [] = []).
  { subst run. destruct op; unfold run_operation; unfold_engine;
      driver_paths; intros Hclean; try discriminate Hclean;
      unfold release; repeat (simpl; rewrite Nat.eqb_refl); reflexivity. }
  split; [|split; [exact Hclean|]].
  - subst run. destruct op; unfold run_operation; unfold_engine;
      driver_paths;
      unfold release; repeat (simpl; rewrite Nat.eqb_refl); reflexivity.
  - intros Hexits. apply Hclean.
    apply (exits_return_clean drv self sql_query sql_query_params w op
             in_transaction Hexits).
Qed.

(** C7. [execute_sql_no_return] never calls [fetchall], whatever the
    statement produces, and returns [None]: it raises only what the driver
    raised (the last exception raised), and otherwise returns [None]. *)
Theorem no_return_never_fetches (in_transaction : option bool) :
  let run :=
    execute_sql_no_return drv self sql_query sql_query_params
      in_transaction w in
  calls is_fetchall (log_of run) = 0 /\
  match last_raised (log_of run) with
  | Some e => result_of run = inl e
  | None => result_of run = inr PyNone
  end.
Proof.
  intros run. split.
  - apply (no_return_attempts drv self sql_query sql_query_params
             in_transaction w).
  - apply (no_return_raises drv self sql_query sql_query_params
             in_transaction w).
Qed.

(** C8. When the driver's [connect], [cursor()], [execute] or [fetchall]
    raises [e] in either operation, the call raises an exception of the
    driver, untranslated: the one the driver raised last, which is [e]
    itself whenever no [__exit__] raised one after it, as when the
    driver's [__exit__] methods never raise.  Nothing is retried:
    [connect] was called once, [execute] and [fetchall] at most once. *)
Theorem driver_error_surfaces (op : operation)
    (in_transaction : option bool) (e : exn) :
  let run :=
    run_operation op drv self sql_query sql_query_params in_transaction w in
  driver_fails drv op self sql_query sql_query_params in_transaction w e ->
  operation_error (log_of run) = Some e /\
  (exists e', result_of run = inl e' /\
              last_raised (log_of run) = Some e') /\
  (exits_clean (log_of run) = true -> result_of run = inl e) /\
  (exits_return drv -> result_of run = inl e) /\
  calls is_connect (log_of run) = 1 /\
  calls is_execute (log_of run) <= 1 /\
  calls is_fetchall (log_of run) <= 1.
Proof.
  intros run Hfails.
  pose proof (driver_fails_logged drv self sql_query sql_query_params w op
                in_transaction e Hfails) as He.
  fold run in He. split; [exact He|].
  assert (Hraise :
            (exists e', result_of run = inl e' /\
                        last_raised (log_of run) = Some e') /\
            (exits_clean (log_of run) = true -> result_of run = inl e)).
  { subst run. destruct op; simpl in *.
    - apply (with_return_operation_error drv self sql_query
               sql_query_params in_transaction w e He).
    - apply (no_return_operation_error drv self sql_query
               sql_query_params in_transaction w e He). }
  destruct Hraise as [Hlast Hsame].
  split; [exact Hlast|]. split; [exact Hsame|]. split.
  - intros Hexits. apply Hsame.
    apply (exits_return_clean drv self sql_query sql_query_params w op
             in_transaction Hexits).
  - subst run. destruct op; simpl.
    + apply (with_return_attempts drv self sql_query sql_query_params
               in_transaction w).
    + pose proof (no_return_attempts drv self sql_query sql_query_params
                    in_transaction w) as (Hc & Hx & Hf).
      rewrite Hf. repeat split; try assumption. lia.
Qed.

(** C9. Constructing the engine gives an object holding the URL and
    nothing else, makes no driver call and leaves the driver's state as it
    was. *)
Theorem init_stores_url (url : string) :
  __init__ (exn := exn) url w = (w, [], inr {| database_url := url |}).
Proof. reflexivity. Qed.

End Claims.

(** C10. Given more than one row, [_form_result] leaves out every row
    without columns: its list has one entry for each row that has a
    column, in row order, so never more entries than rows, and fewer as
    soon as one row has no column. *)
Theorem rows_without_columns_dropped (result : list row) :
  1 < length result ->
  _form_result result = PyList (map entry (filter has_column result)) /\
  length (map entry (filter has_column result)) <= length result /\
  (In [] result ->
   length (map entry (filter has_column result)) < length result).
Proof.
  intros Hlen. rewrite length_map.
  split; [now apply form_result_several|].
  split; [apply filter_has_column_le | apply filter_has_column_lt].
Qed.

(** ** The claims on the scripted driver *)

Lemma one_row_gives_its_values_witness :
  fetched
    (log_of
       (execute_sql_with_return (scripted (gives [ann])) engine select_users
          [] (Some true) 0)) = Some [ann] /\
  result_of
    (execute_sql_with_return (scripted (gives [ann])) engine select_users
       [] (Some true) 0) = inr (PyList [PyInt 1; PyStr "ann"]).
Proof.
  split; [reflexivity|].
  exact (proj2 (proj2 (one_row_gives_its_values (scripted (gives [ann]))
                         engine select_users [] 0 (Some true) ann eq_refl))
           eq_refl).
Defined.

Lemma no_row_gives_none_witness :
  fetched
    (log_of
       (execute_sql_with_return (scripted (gives [])) engine select_users
          [] (Some false) 0)) = Some [] /\
  result_of
    (execute_sql_with_return (scripted (gives [])) engine select_users
       [] (Some false) 0) = inr PyNone.
Proof.
  split; [reflexivity|].
  exact (proj2 (proj2 (no_row_gives_none (scripted (gives [])) engine
                         select_users [] 0 (Some false) eq_refl))
           eq_refl).
Defined.

Lemma single_column_rows_give_scalars_witness :
  1 < length ids /\
  exists items : list pyvalue,
    length items = length ids /\
    ids = map (fun v => [v]) items /\
    _form_result ids = PyList items /\
    (forall v,
       result_of
         (execute_sql_with_return (scripted (gives ids)) engine select_users
            [] (Some true) 0) = inr v ->
       v = PyList items) /\
    (exits_clean
       (log_of
          (execute_sql_with_return (scripted (gives ids)) engine
             select_users [] (Some true) 0)) = true ->
     result_of
       (execute_sql_with_return (scripted (gives ids)) engine select_users
          [] (Some true) 0) = inr (PyList items)).
Proof.
  split; [simpl; lia|].
  apply (single_column_rows_give_scalars (scripted (gives ids)) engine
           select_users [] 0 (Some true) ids).
  - reflexivity.
  - simpl; lia.
  - repeat constructor.
Defined.

Lemma multi_column_rows_give_tuples_witness :
  1 < length [ann; bob] /\
  result_of
    (execute_sql_with_return (scripted (gives [ann; bob])) engine
       select_users [] (Some true) 0) =
  inr (PyList [PyTuple ann; PyTuple bob]).
Proof.
  split; [simpl; lia|].
  refine (proj2 (proj2 (proj2
            (multi_column_rows_give_tuples (scripted (gives [ann; bob]))
               engine select_users [] 0 (Some true) [ann; bob]
               eq_refl _ _))) eq_refl).
  - simpl; lia.
  - repeat constructor.
Defined.

(** On a scripted driver the [__exit__] methods never raise when the
    script has neither raise. *)
Lemma scripted_exits_return (s : script) :
  cursor_exit_raises s = None ->
  connection_exit_raises s = None ->
  exits_return (scripted s).
Proof.
  intros Hk Hc. split; intros; simpl; [rewrite Hk | rewrite Hc]; reflexivity.
Qed.

Lemma driver_error_surfaces_witness :
  (driver_fails (scripted connect_fails) NoReturn engine select_users []
     (Some true) 0 "connection refused"%string /\
   result_of
     (run_operation NoReturn (scripted connect_fails) engine select_users
        [] (Some true) 0) = inl "connection refused"%string) /\
  (driver_fails (scripted execute_fails) NoReturn engine select_users []
     (Some false) 0 "syntax error at or near FROM"%string /\
   result_of
     (run_operation NoReturn (scripted execute_fails) engine select_users
        [] (Some false) 0) = inl "syntax error at or near FROM"%string) /\
  (driver_fails (scripted execute_fails) WithReturn engine select_users []
     (Some true) 0 "syntax error at or near FROM"%string /\
   result_of
     (run_operation WithReturn (scripted execute_fails) engine select_users
        [] (Some true) 0) = inl "syntax error at or near FROM"%string) /\
  (driver_fails (scripted fetch_fails) WithReturn engine select_users []
     (Some true) 0 "the last operation didn't produce a result"%string /\
   result_of
     (run_operation WithReturn (scripted fetch_fails) engine select_users
        [] (Some true) 0) =
   inl "the last operation didn't produce a result"%string).
Proof.
  assert (H1 : driver_fails (scripted connect_fails) NoReturn engine
                 select_users [] (Some true) 0 "connection refused"%string)
    by (apply (FailsConnect _ _ _ _ _ _ _ _ 1); reflexivity).
  assert (H2 : driver_fails (scripted execute_fails) NoReturn engine
                 select_users [] (Some false) 0
                 "syntax error at or near FROM"%string)
    by (apply (FailsExecute _ _ _ _ _ _ _ _ 1 2 3 0 1); reflexivity).
  assert (H3 : driver_fails (scripted execute_fails) WithReturn engine
                 select_users [] (Some true) 0
                 "syntax error at or near FROM"%string)
    by (apply (FailsExecute _ _ _ _ _ _ _ _ 1 2 3 0 1); reflexivity).
  assert (H4 : driver_fails (scripted fetch_fails) WithReturn engine
                 select_users [] (Some true) 0
                 "the last operation didn't produce a result"%string)
    by (apply (FailsFetchall _ _ _ _ _ _ _ _ 1 2 3 4 0 1); reflexivity).
  refine (conj (conj H1 _) (conj (conj H2 _) (conj (conj H3 _)
            (conj H4 _)))).
  - exact (proj1 (proj2 (proj2 (proj2
             (driver_error_surfaces (scripted connect_fails) engine
                select_users [] 0 NoReturn (Some true) _ H1))))
             (scripted_exits_return connect_fails eq_refl eq_refl)).
  - exact (proj1 (proj2 (proj2 (proj2
             (driver_error_surfaces (scripted execute_fails) engine
                select_users [] 0 NoReturn (Some false) _ H2))))
             (scripted_exits_return execute_fails eq_refl eq_refl)).
  - exact (proj1 (proj2 (proj2 (proj2
             (driver_error_surfaces (scripted execute_fails) engine
                select_users [] 0 WithReturn (Some true) _ H3))))
             (scripted_exits_return execute_fails eq_refl eq_refl)).
  - exact (proj1 (proj2 (proj2 (proj2
             (driver_error_surfaces (scripted fetch_fails) engine
                select_users [] 0 WithReturn (Some true) _ H4))))
             (scripted_exits_return fetch_fails eq_refl eq_refl)).
Defined.

Lemma released_when_exits_return_witness :
  exits_clean
    (log_of
       (run_operation WithReturn (scripted fetch_fails) engine select_users
          [] (Some true) 0)) = true /\
  still_open
    (log_of
       (run_operation WithReturn (scripted fetch_fails) engine select_users
          [] (Some true) 0)) [] = [] /\
  awaiting_exit
    (log_of
       (run_operation NoReturn (scripted (commit_fails [])) engine
          select_users [] (Some true) 0)) [] = [].
Proof.
  split; [reflexivity|]. split.
  - exact (proj1 (proj2
             (released_when_exits_return (scripted fetch_fails) engine
                select_users [] 0 WithReturn (Some true))) eq_refl).
  - exact (proj1
             (released_when_exits_return (scripted (commit_fails []))
                engine select_users [] 0 NoReturn (Some true))).
Defined.

(** The claim C6 as first stated fails where the commit of
    [Connection.__exit__] raises: the call ends, raising, with its
    connection still open. *)
Lemma commit_failure_leaves_connection_open :
  result_of
    (execute_sql_with_return (scripted (commit_fails [ann])) engine
       select_users [] (Some true) 0) =
  inl "deferred constraint violated"%string /\
  still_open
    (log_of
       (execute_sql_with_return (scripted (commit_fails [ann])) engine
          select_users [] (Some true) 0)) [] = [HConnection 0].
Proof. split; reflexivity. Qed.

Lemma rows_without_columns_dropped_witness :
  1 < length ragged /\
  In [] ragged /\
  _form_result ragged = PyList [PyInt 1; PyTuple bob] /\
  length (map entry (filter has_column ragged)) < length ragged.
Proof.
  assert (Hlen : 1 < length ragged) by (simpl; lia).
  assert (Hin : In [] ragged) by (simpl; tauto).
  destruct (rows_without_columns_dropped ragged Hlen) as (Hform & _ & Hlt).
  split; [exact Hlen|]. split; [exact Hin|].
  split; [exact Hform | exact (Hlt Hin)].
Defined.

(** ** The log on sample runs *)

(** A failed [execute] reaches both [__exit__] calls with the exception in
    flight. *)
Example execute_fails_log :
  log_of
    (execute_sql_no_return (scripted execute_fails) engine select_users []
       (Some false) 0) =
  [EvConnect (database_url engine) true (inr 0);
   EvCursor 0 (inr 1);
   EvExecute 1 select_users [] (inl "syntax error at or near FROM"%string);
   EvCursorExit 1 (Some "syntax error at or near FROM"%string) (inr tt);
   EvConnectionExit 0 (Some "syntax error at or near FROM"%string) (inr tt)].
Proof. reflexivity. Qed.

(** An exception of [Connection.__exit__] is the one the call raises, also
    after a fetch that returned. *)
Example commit_fails_raises :
  result_of
    (execute_sql_with_return (scripted (commit_fails [ann])) engine
       select_users [] (Some true) 0) =
  inl "deferred constraint violated"%string.
Proof. reflexivity. Qed.

(** [still_open] tells a log that leaves a connection open. *)
Example still_open_unreleased :
  still_open (exn := string)
    [EvConnect select_users true (inr 3); EvCursor 3 (inr 4);
     EvCursorExit 4 None (inr tt)] [] = [HConnection 3].
Proof. reflexivity. Qed.

(** * Further properties *)

(** ** The shapes [_form_result] gives *)

(** Rows of one column each have their first item as entry. *)
Lemma single_columns_getitem0 (result : list row) :
  Forall (fun record => length record = 1) result ->
  map entry result = map getitem0 result.
Proof.
  induction 1 as [|record result Hrecord _ IH]; simpl; [reflexivity|].
  unfold entry at 1. rewrite Hrecord. simpl. now rewrite IH.
Qed.

(** Rows without columns are all left out. *)
Lemma no_columns (result : list row) :
  Forall (fun record => length record = 0) result ->
  filter has_column result = [].
Proof.
  induction 1 as [|record result Hrecord _ IH]; simpl; [reflexivity|].
  unfold has_column. now rewrite Hrecord.
Qed.

Lemma form_result_none_inv (result : list row) :
  _form_result result = PyNone -> result = [].
Proof.
  destruct result as [|record [|record' result]]; intros H.
  - reflexivity.
  - discriminate H.
  - rewrite form_result_several in H by (simpl; lia). discriminate H.
Qed.

(** X1. [_form_result] gives [None] for the empty result and for no
    other: one row or more always give a list. *)
Theorem none_only_for_no_row (result : list row) :
  (_form_result result = PyNone <-> result = []) /\
  (result = [] \/ exists items, _form_result result = PyList items).
Proof.
  split; [split; [apply form_result_none_inv | now intros ->]|].
  destruct result as [|record [|record' result]].
  - now left.
  - right. now exists record.
  - right. eexists. apply form_result_several. simpl; lia.
Qed.

(** X2. Rows that are all without columns, one or many, give the empty
    list, not [None]. *)
Theorem rows_without_columns_give_empty_list (result : list row) :
  0 < length result ->
  Forall (fun record => length record = 0) result ->
  _form_result result = PyList [].
Proof.
  intros Hlen Hcols.
  destruct result as [|record [|record' result]].
  - simpl in Hlen. lia.
  - inversion Hcols as [|? ? Hrecord _]; subst.
    destruct record; [reflexivity | discriminate Hrecord].
  - rewrite form_result_several by (simpl; lia).
    now rewrite (no_columns _ Hcols).
Qed.

(** X3. Rows of one column each, one or many, give the list of their
    values in row order: a single such row is not a special case. *)
Theorem single_column_uniform (result : list row) :
  0 < length result ->
  Forall (fun record => length record = 1) result ->
  _form_result result = PyList (map getitem0 result).
Proof.
  intros Hlen Hcols.
  destruct result as [|record [|record' result]].
  - simpl in Hlen. lia.
  - inversion Hcols as [|? ? Hrecord _]; subst.
    destruct record as [|v [|v' record]]; try discriminate Hrecord.
    reflexivity.
  - rewrite form_result_several by (simpl; lia).
    destruct (single_columns _ Hcols) as [-> _].
    now rewrite (single_columns_getitem0 _ Hcols).
Qed.

(** X4. One row of N > 1 columns and N rows of one column each, holding
    the same values, give the same result. *)
Theorem one_wide_row_as_many_narrow (record : row) :
  1 < length record ->
  _form_result [record] = _form_result (map (fun v => [v]) record).
Proof.
  intros Hlen.
  assert (Hcols : Forall (fun r : row => length r = 1)
                    (map (fun v => [v]) record)).
  { apply Forall_forall. intros r Hr.
    apply in_map_iff in Hr as (v & <- & _). reflexivity. }
  rewrite (form_result_several (map (fun v => [v]) record))
    by (now rewrite length_map).
  destruct (single_columns _ Hcols) as [-> _].
  rewrite (single_columns_getitem0 _ Hcols), map_map. simpl.
  now rewrite map_id.
Qed.

(** X5. Among several rows, a row whose one column holds a tuple gives the
    same entry as the row of that tuple's columns: rows of more than one
    column each and the one-column rows holding them as tuples give the
    same result. *)
Theorem tuple_column_as_columns (result : list row) :
  1 < length result ->
  Forall (fun record => 1 < length record) result ->
  _form_result (map (fun record : row => [PyTuple record]) result) =
  _form_result result.
Proof.
  intros Hlen Hcols.
  assert (Hone : Forall (fun r : row => length r = 1)
                   (map (fun record : row => [PyTuple record]) result)).
  { apply Forall_forall. intros r Hr.
    apply in_map_iff in Hr as (v & <- & _). reflexivity. }
  rewrite (form_result_several (map (fun record : row => [PyTuple record])
                                   result))
    by (now rewrite length_map).
  destruct (single_columns _ Hone) as [-> _].
  rewrite (single_columns_getitem0 _ Hone), map_map. simpl.
  rewrite form_result_several by assumption.
  destruct (several_columns _ Hcols) as [-> ->]. reflexivity.
Qed.

(** X6. The result of two batches of several rows put end to end is the
    two results put end to end. *)
Theorem batches_concatenate (rows1 rows2 : list row) :
  1 < length rows1 ->
  1 < length rows2 ->
  exists items1 items2 : list pyvalue,
    _form_result rows1 = PyList items1 /\
    _form_result rows2 = PyList items2 /\
    _form_result (rows1 ++ rows2) = PyList (items1 ++ items2).
Proof.
  intros Hlen1 Hlen2.
  exists (map entry (filter has_column rows1)),
         (map entry (filter has_column rows2)).
  rewrite !form_result_several by (rewrite ?length_app; lia).
  now rewrite filter_app, map_app.
Qed.

(** ** The driver calls of a run *)

Ltac unfold_operation op :=
  destruct op; unfold run_operation; unfold_engine.

(** Splits a log whose items are known into all but its last two calls,
    or all but its last call. *)
Ltac split_log :=
  match goal with
  | |- exists (body : _) (r : _) (exc : _) (r' : _), _ :: _ :: ?l = _ /\ _ =>
      exists (removelast (removelast l)); simpl;
      do 3 eexists; split; reflexivity
  | |- exists (pre : _) (r : _), ?l = _ =>
      exists (removelast l); simpl; eexists; reflexivity
  end.

Section Calls.

Context {exn world : Type} (drv : psycopg exn world).
Variables (self : PostgreSQLEngine) (sql_query : string)
  (sql_query_params : list pyvalue) (w : world).

(** X7. With [in_transaction=None], which [Optional[bool]] allows, both
    operations connect with [autocommit] on, as with [False]. *)
Theorem none_in_transaction_autocommits (op : operation) :
  connects
    (log_of (run_operation op drv self sql_query sql_query_params None w)) =
  [(database_url self, true)].
Proof. unfold_operation op; driver_paths; reflexivity. Qed.

(** X8. When [connect] raises, the call raises that exception and has made
    no other driver call: no cursor, no statement, no [__exit__]; the
    driver's state is the one [connect] left. *)
Theorem connect_failure_stops (op : operation)
    (in_transaction : option bool) (w1 : world) (e : exn) :
  connect drv (database_url self) (autocommit_of in_transaction) w =
  (w1, inl e) ->
  run_operation op drv self sql_query sql_query_params in_transaction w =
  (w1,
   [EvConnect (database_url self) (autocommit_of in_transaction) (inl e)],
   inl e).
Proof. intros H. unfold_operation op; rewrite H; reflexivity. Qed.

(** X9. The only statement either operation sends is the caller's query
    with the caller's parameters, both unchanged; it is sent when no driver
    call raised, and at most once otherwise. *)
Theorem statement_sent_unchanged (op : operation)
    (in_transaction : option bool) :
  let run :=
    run_operation op drv self sql_query sql_query_params in_transaction w in
  match last_raised (log_of run) with
  | None => statements (log_of run) = [(sql_query, sql_query_params)]
  | Some _ =>
      statements (log_of run) = [] \/
      statements (log_of run) = [(sql_query, sql_query_params)]
  end.
Proof. unfold_operation op; driver_paths; cbn; auto. Qed.

(** X10. When [connect] returned a connection, the last driver call of
    either operation is that connection's [__exit__], and it receives the
    last exception raised before it, [None] if nothing raised: the
    transaction is committed only after a body that ran through. *)
Theorem connection_exit_is_last (op : operation)
    (in_transaction : option bool) (w1 : world) (c : connection) :
  connect drv (database_url self) (autocommit_of in_transaction) w =
  (w1, inr c) ->
  exists (pre : list (event exn)) (r : outcome exn unit),
    log_of
      (run_operation op drv self sql_query sql_query_params in_transaction
         w) =
    pre ++ [EvConnectionExit c (last_raised pre) r].
Proof.
  intros H. unfold_operation op; rewrite H; simpl; driver_paths; split_log.
Qed.

(** X11. When [connect] and [cursor()] returned, the log is: the two of
    them; then [execute] and, if reached, [fetchall]; then the cursor's
    [__exit__], which receives the exception those raised if any; then the
    connection's [__exit__].  The cursor is closed before the
    connection. *)
Theorem cursor_closed_before_connection (op : operation)
    (in_transaction : option bool) (w1 w2 : world) (c : connection)
    (k : cursor) :
  connect drv (database_url self) (autocommit_of in_transaction) w =
  (w1, inr c) ->
  Connection_cursor drv c w1 = (w2, inr k) ->
  exists (body : list (event exn)) (r : outcome exn unit)
         (exc : option exn) (r' : outcome exn unit),
    log_of
      (run_operation op drv self sql_query sql_query_params in_transaction
         w) =
    EvConnect (database_url self) (autocommit_of in_transaction) (inr c)
      :: EvCursor c (inr k)
      :: body ++ [EvCursorExit k (last_raised body) r;
                  EvConnectionExit c exc r'] /\
    forallb (fun ev => is_execute ev || is_fetchall ev) body = true.
Proof.
  intros Hc Hk.
  unfold_operation op; rewrite Hc; simpl; rewrite Hk; simpl; driver_paths;
    split_log.
Qed.

(** X12. Neither operation goes on after a failure: of [connect],
    [cursor()], [execute] and [fetchall], only the last one called can have
    raised. *)
Theorem failed_operation_is_last (op : operation)
    (in_transaction : option bool) :
  forallb returned
    (removelast
       (operations
          (log_of
             (run_operation op drv self sql_query sql_query_params
                in_transaction w)))) = true.
Proof. unfold_operation op; driver_paths; reflexivity. Qed.

(** X13. When a statement fails under [execute_sql_no_return] (in
    [connect], [cursor()] or [execute]), [execute_sql_with_return] on the
    same input does exactly the same: same driver calls, same final state,
    same exception. *)
Theorem same_failure_with_or_without_return (in_transaction : option bool)
    (e : exn) :
  operation_error
    (log_of
       (execute_sql_no_return drv self sql_query sql_query_params
          in_transaction w)) = Some e ->
  execute_sql_with_return drv self sql_query sql_query_params
    in_transaction w =
  execute_sql_no_return drv self sql_query sql_query_params
    in_transaction w.
Proof.
  unfold_engine. driver_paths.
  all: cbn; intros H; try discriminate H; reflexivity.
Qed.

(** X14. [execute_sql_with_return] raises exactly when a driver call
    raised, an [__exit__] included, and then the last exception raised;
    otherwise [fetchall] returned, and the call returns [_form_result] of
    its rows. *)
Theorem with_return_raises_or_shapes (in_transaction : option bool) :
  let run :=
    execute_sql_with_return drv self sql_query sql_query_params
      in_transaction w in
  match last_raised (log_of run) with
  | Some e => result_of run = inl e
  | None =>
      exists rows : list row,
        fetched (log_of run) = Some rows /\
        result_of run = inr (_form_result rows)
  end.
Proof. unfold_engine; driver_paths; cbn; eauto. Qed.

(** X15. [execute_sql_with_return] returns [None] exactly when [fetchall]
    returned no row and no driver call raised. *)
Theorem returns_none_iff_no_row (in_transaction : option bool) :
  let run :=
    execute_sql_with_return drv self sql_query sql_query_params
      in_transaction w in
  result_of run = inr PyNone <->
  fetched (log_of run) = Some [] /\ last_raised (log_of run) = None.
Proof.
  unfold_engine; driver_paths; cbn.
  all: split; [intros H | intros [H1 H2]]; try discriminate.
  - injection H as H. apply form_result_none_inv in H. now subst.
  - now injection H1 as ->.
Qed.

(** X16. Either operation calls [cursor()] and [__exit__] only on the
    connection its own [connect] returned, and [execute], [fetchall] and
    [__exit__] only on the cursor its own [cursor()] returned. *)
Theorem only_own_handles (op : operation) (in_transaction : option bool) :
  own_handles
    (log_of
       (run_operation op drv self sql_query sql_query_params in_transaction
          w)) None None = true.
Proof.
  unfold_operation op; driver_paths; simpl; rewrite ?Nat.eqb_refl;
    reflexivity.
Qed.

End Calls.

(** ** The further properties on sample rows and on the scripted driver *)

Lemma rows_without_columns_give_empty_list_witness :
  0 < length bare /\ _form_result bare = PyList [].
Proof.
  split; [simpl; lia|].
  apply (rows_without_columns_give_empty_list bare);
    [simpl; lia | repeat constructor].
Defined.

Lemma single_column_uniform_witness :
  0 < length [[PyStr "ann"]] /\
  _form_result [[PyStr "ann"]] = PyList [PyStr "ann"].
Proof.
  split; [simpl; lia|].
  apply (single_column_uniform [[PyStr "ann"]]);
    [simpl; lia | repeat constructor].
Defined.

Lemma one_wide_row_as_many_narrow_witness :
  1 < length ann /\
  _form_result [ann] = _form_result [[PyInt 1]; [PyStr "ann"]].
Proof.
  split; [simpl; lia|].
  apply (one_wide_row_as_many_narrow ann). simpl; lia.
Defined.

Lemma tuple_column_as_columns_witness :
  1 < length [ann; bob] /\
  _form_result [[PyTuple ann]; [PyTuple bob]] = _form_result [ann; bob].
Proof.
  split; [simpl; lia|].
  apply (tuple_column_as_columns [ann; bob]);
    [simpl; lia | repeat constructor].
Defined.

Lemma batches_concatenate_witness :
  1 < length ids /\
  1 < length ragged /\
  exists items1 items2 : list pyvalue,
    _form_result ids = PyList items1 /\
    _form_result ragged = PyList items2 /\
    _form_result (ids ++ ragged) = PyList (items1 ++ items2).
Proof.
  split; [simpl; lia|]. split; [simpl; lia|].
  apply (batches_concatenate ids ragged); simpl; lia.
Defined.

Lemma connect_failure_stops_witness :
  connect (scripted connect_fails) (database_url engine)
    (autocommit_of (Some true)) 0 = (1, inl "connection refused"%string) /\
  run_operation NoReturn (scripted connect_fails) engine select_users []
    (Some true) 0 =
  (1,
   [EvConnect (database_url engine) false (inl "connection refused"%string)],
   inl "connection refused"%string).
Proof.
  split; [reflexivity|].
  exact (connect_failure_stops (scripted connect_fails) engine select_users
           [] 0 NoReturn (Some true) 1 "connection refused"%string eq_refl).
Defined.

Lemma connection_exit_is_last_witness :
  connect (scripted cursor_fails) (database_url engine)
    (autocommit_of (Some true)) 0 = (1, inr 0) /\
  exists (pre : list (event string)) (r : outcome string unit),
    log_of
      (run_operation WithReturn (scripted cursor_fails) engine select_users
         [] (Some true) 0) =
    pre ++ [EvConnectionExit 0 (last_raised pre) r].
Proof.
  split; [reflexivity|].
  exact (connection_exit_is_last (scripted cursor_fails) engine select_users
           [] 0 WithReturn (Some true) 1 0 eq_refl).
Defined.

Lemma cursor_closed_before_connection_witness :
  connect (scripted execute_fails) (database_url engine)
    (autocommit_of (Some false)) 0 = (1, inr 0) /\
  Connection_cursor (scripted execute_fails) 0 1 = (2, inr 1) /\
  exists (body : list (event string)) (r : outcome string unit)
         (exc : option string) (r' : outcome string unit),
    log_of
      (run_operation NoReturn (scripted execute_fails) engine select_users
         [] (Some false) 0) =
    EvConnect (database_url engine) (autocommit_of (Some false)) (inr 0)
      :: EvCursor 0 (inr 1)
      :: body ++ [EvCursorExit 1 (last_raised body) r;
                  EvConnectionExit 0 exc r'] /\
    forallb (fun ev => is_execute ev || is_fetchall ev) body = true.
Proof.
  split; [reflexivity|]. split; [reflexivity|].
  exact (cursor_closed_before_connection (scripted execute_fails) engine
           select_users [] 0 NoReturn (Some false) 1 2 0 1 eq_refl eq_refl).
Defined.

Lemma same_failure_with_or_without_return_witness :
  operation_error
    (log_of
       (execute_sql_no_return (scripted execute_fails) engine select_users
          [] (Some true) 0)) =
  Some "syntax error at or near FROM"%string /\
  execute_sql_with_return (scripted execute_fails) engine select_users []
    (Some true) 0 =
  execute_sql_no_return (scripted execute_fails) engine select_users []
    (Some true) 0.
Proof.
  split; [reflexivity|].
  exact (same_failure_with_or_without_return (scripted execute_fails) engine
           select_users [] 0 (Some true)
           "syntax error at or near FROM"%string eq_refl).
Defined.

(** Without a failure the two operations differ: only one fetches. *)
Example fetch_only_with_return :
  calls is_fetchall
    (log_of
       (execute_sql_with_return (scripted (gives ids)) engine select_users
          [] (Some true) 0)) = 1 /\
  calls is_fetchall
    (log_of
       (execute_sql_no_return (scripted (gives ids)) engine select_users
          [] (Some true) 0)) = 0.
Proof. split; reflexivity. Qed.
